(** * Mazie math runtime: a shallow embedding of [mazie_runtime.py]

    The module under study wraps a Python [float] (an IEEE-754 binary64) in a
    frozen dataclass [MazieNum] that carries a [MazieMode], and overloads the
    arithmetic operators so that [x / 0] gives [x] back when the mode asks for
    it.

    Python floats are modelled by [spec_float] of the standard library at
    precision 53 and maximal exponent 1024, with round-to-nearest-even: the
    operations below compute, they are not axiomatised.  [spec_float] has one
    NaN: the sign and payload of a NaN are not modelled, so an equation
    between two doubles is stated only where neither is a NaN, or says no
    more than that both are.  Python integers are
    unbounded and are modelled by [Z].  Exceptions are modelled by an error
    monad. *)

From Stdlib Require Import ZArith Bool String Lia.
From Stdlib Require Import Floats.SpecFloat.

Local Open Scope Z_scope.

(** A Python [float]. *)
Definition float : Type := spec_float.

(** ** Exceptions and the error monad *)

Module Py.

(** The three exception classes the module can let escape. *)
Inductive exn : Type :=
| TypeError
| ZeroDivisionError
| OverflowError.

Inductive result (A : Type) : Type :=
| Ok (a : A)
| Raise (e : exn).

Arguments Ok {A} a.
Arguments Raise {A} e.

Definition bind {A B : Type} (r : result A) (k : A -> result B) : result B :=
  match r with
  | Ok a => k a
  | Raise e => Raise e
  end.

Definition fmap {A B : Type} (f : A -> B) (r : result A) : result B :=
  match r with
  | Ok a => Ok (f a)
  | Raise e => Raise e
  end.

End Py.

Import Py.

Declare Scope py_scope.
Delimit Scope py_scope with py.
Notation "x <- c1 ;; c2" := (Py.bind c1 (fun x => c2))
  (at level 100, c1 at next level, right associativity) : py_scope.
Local Open Scope py_scope.

(** ** Python floats: IEEE-754 binary64 *)

Module F64.

Definition prec : Z := 53.
Definition emax : Z := 1024.

Definition add : float -> float -> float := SFadd prec emax.
Definition sub : float -> float -> float := SFsub prec emax.
Definition mul : float -> float -> float := SFmul prec emax.
Definition opp : float -> float := SFopp.

(** Python's [==] on floats: IEEE comparison, false on NaN, true on
    [0.0 == -0.0]. *)
Definition eqb : float -> float -> bool := SFeqb.

Definition zero : float := S754_zero false.
Definition neg_zero : float := S754_zero true.

Definition is_nan (x : float) : bool :=
  match x with S754_nan => true | _ => false end.

Definition is_infinity (x : float) : bool :=
  match x with S754_infinity _ => true | _ => false end.

(** [math.isfinite]. *)
Definition is_finite (x : float) : bool :=
  match x with
  | S754_zero _ | S754_finite _ _ _ => true
  | S754_infinity _ | S754_nan => false
  end.

(** Python's [float.__truediv__]: a zero divisor raises, anything else is
    the IEEE quotient. *)
Definition truediv (x y : float) : result float :=
  if eqb y zero then Raise ZeroDivisionError
  else Ok (SFdiv prec emax x y).

(** Python's [float(n)] on an [int]: the nearest double, ties to even;
    an integer that rounds beyond the largest double raises. *)
Definition of_int (n : Z) : result float :=
  let f := binary_normalize prec emax n 0 false in
  if is_infinity f then Raise OverflowError else Ok f.

End F64.

(** ** The data model *)

(** [class MazieMode]: the runtime semantics switch. *)
Record MazieMode : Type := mkMazieMode { div0_identity : bool }.

(** [MazieMode()]: the field's default is [True]. *)
Definition default_mode : MazieMode := mkMazieMode true.

(** [class MazieNum]: a frozen pair of a float and a mode. *)
Record MazieNum : Type := mkMazieNum { value : float ; mode : MazieMode }.

(** [Union[int, float]].  [bool] is a subclass of [int] in Python and is
    covered by [NInt 0] and [NInt 1]. *)
Inductive number : Type :=
| NInt (n : Z)
| NFloat (f : float).

(** What an operator may receive at run time: a plain number, a [MazieNum],
    or an object of any other class (named by its type). *)
Inductive pyobj : Type :=
| PNum (n : number)
| PMazie (m : MazieNum)
| POther (type_name : string).

(** [float(x)] for [x : Union[int, float]]. *)
Definition to_float (x : number) : result float :=
  match x with
  | NInt n => F64.of_int n
  | NFloat f => Ok f
  end.

(** ** The operations *)

(** [_as_num(x, mode)]. *)
Definition _as_num (x : pyobj) (md : MazieMode) : result MazieNum :=
  match x with
  | PMazie m => Ok (mkMazieNum (value m) md)
  | PNum n => v <- to_float n ;; Ok (mkMazieNum v md)
  | POther _ => Raise TypeError
  end.

(** [MazieNum.unwrap]: [float(self.value)], the identity on a float. *)
Definition unwrap (self : MazieNum) : float := value self.

Definition __add__ (self : MazieNum) (other : pyobj) : result MazieNum :=
  o <- _as_num other (mode self) ;;
  Ok (mkMazieNum (F64.add (value self) (value o)) (mode self)).

Definition __radd__ (self : MazieNum) (other : pyobj) : result MazieNum :=
  c <- _as_num other (mode self) ;; __add__ c (PMazie self).

Definition __sub__ (self : MazieNum) (other : pyobj) : result MazieNum :=
  o <- _as_num other (mode self) ;;
  Ok (mkMazieNum (F64.sub (value self) (value o)) (mode self)).

Definition __rsub__ (self : MazieNum) (other : pyobj) : result MazieNum :=
  c <- _as_num other (mode self) ;; __sub__ c (PMazie self).

Definition __mul__ (self : MazieNum) (other : pyobj) : result MazieNum :=
  o <- _as_num other (mode self) ;;
  Ok (mkMazieNum (F64.mul (value self) (value o)) (mode self)).

Definition __rmul__ (self : MazieNum) (other : pyobj) : result MazieNum :=
  c <- _as_num other (mode self) ;; __mul__ c (PMazie self).

Definition __truediv__ (self : MazieNum) (other : pyobj) : result MazieNum :=
  o <- _as_num other (mode self) ;;
  if F64.eqb (value o) F64.zero then
    if div0_identity (mode self) then
      Ok (mkMazieNum (value self) (mode self))
    else Raise ZeroDivisionError
  else
    q <- F64.truediv (value self) (value o) ;;
    Ok (mkMazieNum q (mode self)).

Definition __rtruediv__ (self : MazieNum) (other : pyobj) : result MazieNum :=
  c <- _as_num other (mode self) ;; __truediv__ c (PMazie self).

Definition __neg__ (self : MazieNum) : MazieNum :=
  mkMazieNum (F64.opp (value self)) (mode self).

Definition __eq__ (self : MazieNum) (other : pyobj) : result bool :=
  match other with
  | PMazie o => Ok (F64.eqb (value self) (value o))
  | PNum n => v <- to_float n ;; Ok (F64.eqb (value self) v)
  | POther _ => Ok false
  end.

(** [M(x, *, mode=None)]: [mode or MazieMode()] is [mode] unless it is
    [None], a dataclass instance being truthy. *)
Definition M (x : number) (md : option MazieMode) : result MazieNum :=
  v <- to_float x ;;
  Ok (mkMazieNum v (match md with Some m => m | None => default_mode end)).

(** The eight binary operator methods, to quantify over them. *)
Inductive binop : Type :=
| Add | RAdd | Sub | RSub | Mul | RMul | TrueDiv | RTrueDiv.

Definition run_binop (op : binop) : MazieNum -> pyobj -> result MazieNum :=
  match op with
  | Add => __add__
  | RAdd => __radd__
  | Sub => __sub__
  | RSub => __rsub__
  | Mul => __mul__
  | RMul => __rmul__
  | TrueDiv => __truediv__
  | RTrueDiv => __rtruediv__
  end.

(** The two division methods, where the mode can decide the outcome. *)
Definition is_division (op : binop) : bool :=
  match op with TrueDiv | RTrueDiv => true | _ => false end.

(** [isinstance(x, (int, float))] and [isinstance(x, MazieNum)]. *)
Definition is_plain_number (x : pyobj) : bool :=
  match x with PNum _ => true | _ => false end.

Definition is_MazieNum (x : pyobj) : bool :=
  match x with PMazie _ => true | _ => false end.

(** The same operand under another mode: a [MazieNum] keeps its value and
    takes the mode [md]; a plain number has no mode of its own. *)
Definition with_mode (md : MazieMode) (x : pyobj) : pyobj :=
  match x with
  | PMazie m => PMazie (mkMazieNum (value m) md)
  | _ => x
  end.

(** ** Some doubles *)

Definition f2 : float := S754_finite false 4503599627370496 (-51).
Definition f3 : float := S754_finite false 6755399441055744 (-51).
Definition f4 : float := S754_finite false 4503599627370496 (-50).
Definition f5 : float := S754_finite false 5629499534213120 (-50).
Definition f10 : float := S754_finite false 5629499534213120 (-49).

(** The smallest positive double, [5e-324]. *)
Definition tiny : float := S754_finite false 1 (-1074).

(** Proof steps shared by the case analyses on the eight methods. *)
Ltac unfold_methods :=
  unfold __radd__, __rsub__, __rmul__, __rtruediv__;
  unfold __add__, __sub__, __mul__, __truediv__, F64.truediv.

Ltac case_if :=
  match goal with
  | |- context [if ?b then _ else _] => destruct b; simpl
  end.

Example of_int_2 : F64.of_int 2 = Ok f2.
Proof. reflexivity. Qed.

Example of_int_3 : F64.of_int 3 = Ok f3.
Proof. reflexivity. Qed.

Example of_int_4 : F64.of_int 4 = Ok f4.
Proof. reflexivity. Qed.

Example of_int_10 : F64.of_int 10 = Ok f10.
Proof. reflexivity. Qed.

Example tiny_valid : valid_binary F64.prec F64.emax tiny = true.
Proof. reflexivity. Qed.

Example of_int_5 : F64.of_int 5 = Ok f5.
Proof. reflexivity. Qed.

Example demo_10_div_2 :
  (a <- M (NInt 10) None ;; r <- __truediv__ a (PNum (NInt 2)) ;; Ok (unwrap r)) = Ok f5.
Proof. vm_compute. reflexivity. Qed.

Example of_int_huge : F64.of_int (2 ^ 1024) = Raise OverflowError.
Proof. vm_compute. reflexivity. Qed.

Example of_int_max : F64.of_int (2 ^ 1024 - 2 ^ 970 - 1)
  = Ok (S754_finite false 9007199254740991 971).
Proof. vm_compute. reflexivity. Qed.

(** ** Facts about binary64 arithmetic *)

Section Rounding.

Variables prec emax : Z.

Lemma shr_1_nonneg (r : shr_record) : 0 <= shr_m r -> 0 <= shr_m (shr_1 r).
Proof.
  destruct r as [m b s]; simpl.
  destruct m as [|p|p]; simpl; intros H; try lia.
  - destruct p; simpl; lia.
Qed.

Lemma iter_shr_1_nonneg (p : positive) :
  forall r, 0 <= shr_m r -> 0 <= shr_m (iter_pos shr_1 p r).
Proof.
  induction p as [p IH|p IH|]; simpl; intros r H.
  - apply IH, IH, shr_1_nonneg, H.
  - apply IH, IH, H.
  - apply shr_1_nonneg, H.
Qed.

Lemma shr_fexp_nonneg (m e : Z) (l : location) :
  0 <= m -> 0 <= shr_m (fst (shr_fexp prec emax m e l)).
Proof.
  intros H. unfold shr_fexp, shr.
  assert (H0 : 0 <= shr_m (shr_record_of_loc m l))
    by (destruct l as [|[]]; exact H).
  destruct (fexp prec emax (Zdigits2 m + e) - e); simpl; trivial.
  apply iter_shr_1_nonneg, H0.
Qed.

Lemma round_nearest_even_nonneg (m : Z) (l : location) :
  0 <= m -> 0 <= round_nearest_even m l.
Proof.
  intros H. destruct l as [|[]]; simpl; try lia.
  destruct (Z.even m); lia.
Qed.

(** Rounding a non-negative mantissa gives a zero, a finite number or an
    infinity, never a NaN. *)
Lemma binary_round_aux_not_nan (s : bool) (m e : Z) (l : location) :
  0 <= m -> binary_round_aux prec emax s m e l <> S754_nan.
Proof.
  intros H. unfold binary_round_aux.
  pose proof (shr_fexp_nonneg m e l H) as H1.
  destruct (shr_fexp prec emax m e l) as [r1 e1]; simpl in H1.
  pose proof (shr_fexp_nonneg _ e1 loc_Exact
                (round_nearest_even_nonneg _ (loc_of_shr_record r1) H1)) as H2.
  destruct (shr_fexp prec emax _ e1 loc_Exact) as [r2 e2]; simpl in H2.
  destruct (shr_m r2) as [|q|q]; try discriminate; try lia.
  destruct (e2 <=? emax - prec); discriminate.
Qed.

Lemma binary_normalize_not_nan (m e : Z) (sz : bool) :
  binary_normalize prec emax m e sz <> S754_nan.
Proof.
  unfold binary_normalize, binary_round.
  destruct m as [|p|p]; try discriminate;
    destruct (shl_align p e _) as [mz ez];
    apply binary_round_aux_not_nan; lia.
Qed.

Lemma SFadd_comm (x y : spec_float) : SFadd prec emax x y = SFadd prec emax y x.
Proof.
  destruct x as [sx|sx| |sx mx ex], y as [sy|sy| |sy my ey]; simpl; trivial;
    try (destruct sx, sy; reflexivity).
  rewrite (Z.min_comm ey ex), Z.add_comm. reflexivity.
Qed.

Lemma SFmul_comm (x y : spec_float) : SFmul prec emax x y = SFmul prec emax y x.
Proof.
  destruct x as [sx|sx| |sx mx ex], y as [sy|sy| |sy my ey]; simpl; trivial;
    try (rewrite (xorb_comm sx sy); reflexivity).
  rewrite (xorb_comm sx sy), (Pos.mul_comm mx my), (Z.add_comm ex ey).
  reflexivity.
Qed.

Lemma SFadd_finite_not_nan (x y : spec_float) :
  F64.is_finite x = true -> F64.is_finite y = true ->
  SFadd prec emax x y <> S754_nan.
Proof.
  destruct x as [sx|sx| |sx mx ex], y as [sy|sy| |sy my ey]; simpl;
    try discriminate; intros _ _.
  - destruct sx, sy; discriminate.
  - apply binary_normalize_not_nan.
Qed.

Lemma SFmul_finite_not_nan (x y : spec_float) :
  F64.is_finite x = true -> F64.is_finite y = true ->
  SFmul prec emax x y <> S754_nan.
Proof.
  destruct x as [sx|sx| |sx mx ex], y as [sy|sy| |sy my ey]; simpl;
    try discriminate; intros _ _.
  apply binary_round_aux_not_nan; lia.
Qed.

End Rounding.

Lemma SFeqb_refl (x : spec_float) : x <> S754_nan -> SFeqb x x = true.
Proof.
  intros H. unfold SFeqb.
  destruct x as [s|s| |s m e]; simpl; try reflexivity.
  - destruct s; reflexivity.
  - contradiction.
  - rewrite Z.compare_refl.
    assert (Hm : Pos.compare_cont Eq m m = Eq) by apply Pos.compare_refl.
    rewrite Hm. destruct s; reflexivity.
Qed.

(** The zero test of the division rule holds of the two zeros and of nothing
    else. *)
Lemma eqb_zero_iff (x : float) :
  F64.eqb x F64.zero = true <-> exists s, x = S754_zero s.
Proof.
  unfold F64.eqb, SFeqb, F64.zero.
  destruct x as [s|s| |s m e]; simpl; split; intros H;
    try discriminate; try (destruct H; discriminate).
  - exists s; reflexivity.
  - reflexivity.
  - destruct s; discriminate.
  - destruct s; discriminate.
Qed.

(** ** The error monad and the coercion *)

Lemma bind_Ok_inv {A B : Type} (r : result A) (k : A -> result B) (b : B) :
  Py.bind r k = Ok b -> exists a, r = Ok a /\ k a = Ok b.
Proof.
  destruct r as [a|e]; simpl; intros H; [exists a; auto | discriminate].
Qed.

(** [float(n)] either succeeds or overflows; it raises nothing else. *)
Lemma to_float_cases (n : number) :
  (exists v, to_float n = Ok v) \/ to_float n = Raise OverflowError.
Proof.
  destruct n as [z|f]; simpl.
  - unfold F64.of_int.
    destruct (F64.is_infinity _); [right; reflexivity | left; eauto].
  - left; eauto.
Qed.

(** A converted integer is never a NaN or an infinity. *)
Lemma of_int_finite (z : Z) (v : float) :
  F64.of_int z = Ok v -> F64.is_finite v = true.
Proof.
  unfold F64.of_int.
  pose proof (binary_normalize_not_nan F64.prec F64.emax z 0 false) as Hn.
  destruct (binary_normalize F64.prec F64.emax z 0 false) as [s|s| |s m e];
    simpl; intros H; inversion H; subst; try reflexivity.
  contradiction.
Qed.

Lemma as_num_mode (x : pyobj) (md : MazieMode) (c : MazieNum) :
  _as_num x md = Ok c -> mode c = md.
Proof.
  destruct x as [n|m|s]; simpl; intros H.
  - apply bind_Ok_inv in H. destruct H as (v & _ & H).
    inversion H; reflexivity.
  - inversion H; reflexivity.
  - discriminate.
Qed.

Lemma as_num_TypeError_iff (x : pyobj) (md : MazieMode) :
  _as_num x md = Raise TypeError <-> exists s, x = POther s.
Proof.
  split.
  - destruct x as [n|m|s]; simpl; intros H.
    + destruct (to_float_cases n) as [[v Hv]|Hv]; rewrite Hv in H;
        simpl in H; discriminate.
    + discriminate.
    + eauto.
  - intros [s ->]. reflexivity.
Qed.

(** Past the zero test, the float division of [__truediv__] cannot raise. *)
Lemma truediv_nonzero (x y : float) :
  F64.eqb y F64.zero = false ->
  F64.truediv x y = Ok (SFdiv F64.prec F64.emax x y).
Proof. intros H. unfold F64.truediv. rewrite H. reflexivity. Qed.

(** [__truediv__] once the operand is coerced. *)
Lemma truediv_coerced (self : MazieNum) (other : pyobj) (o : MazieNum) :
  _as_num other (mode self) = Ok o ->
  __truediv__ self other =
    if F64.eqb (value o) F64.zero then
      if div0_identity (mode self) then Ok (mkMazieNum (value self) (mode self))
      else Raise ZeroDivisionError
    else Ok (mkMazieNum (SFdiv F64.prec F64.emax (value self) (value o)) (mode self)).
Proof.
  intros H. unfold __truediv__. rewrite H. simpl.
  destruct (F64.eqb (value o) F64.zero) eqn:Hz; trivial.
  rewrite (truediv_nonzero _ _ Hz). reflexivity.
Qed.

(** ** Division by zero *)

(** C1.  Make a [MazieNum] from a plain number whose float is [x] (any
    double, the finite ones in particular), with any mode whose
    [div0_identity] is [True] (the default mode is one).  Dividing it by an
    operand that coerces to a value comparing equal to [0.0] returns a
    [MazieNum] whose value is [x] itself and whose mode is the dividend's. *)
Theorem C1_div_zero_returns_dividend
    (n : number) (x : float) (omd : option MazieMode) (a : MazieNum)
    (other : pyobj) (o : MazieNum) :
  to_float n = Ok x ->
  M n omd = Ok a ->
  div0_identity (mode a) = true ->
  _as_num other (mode a) = Ok o ->
  F64.eqb (value o) F64.zero = true ->
  __truediv__ a other = Ok (mkMazieNum x (mode a)) /\ value a = x.
Proof.
  intros Hx Ha Hm Ho Hz.
  assert (Hv : value a = x).
  { unfold M in Ha. rewrite Hx in Ha. inversion Ha. reflexivity. }
  split; [|exact Hv].
  rewrite (truediv_coerced _ _ _ Ho), Hz, Hm, Hv. reflexivity.
Qed.

Lemma C1_witness :
  F64.is_finite f5 = true /\
  M (NInt 5) None = Ok (mkMazieNum f5 default_mode) /\
  __truediv__ (mkMazieNum f5 default_mode) (PNum (NInt 0))
    = Ok (mkMazieNum f5 default_mode).
Proof.
  split; [reflexivity|]. split; [reflexivity|].
  refine (proj1 (C1_div_zero_returns_dividend (NInt 5) f5 None
                   (mkMazieNum f5 default_mode) (PNum (NInt 0))
                   (mkMazieNum F64.zero default_mode) _ _ _ _ _));
    reflexivity.
Defined.

(** C2.  [__truediv__] raises [ZeroDivisionError] exactly when the divisor
    coerces to a value equal to zero and the dividend's mode has
    [div0_identity = False].  In particular [M(x, mode=md) / M(0.0)] raises it
    for every finite [x] when [md.div0_identity] is [False]; and when the
    divisor's value is not zero the division raises nothing and its value is
    the IEEE quotient of the two values. *)
Theorem C2_zero_division_error_iff :
  (forall (self : MazieNum) (other : pyobj),
      __truediv__ self other = Raise ZeroDivisionError <->
      exists o, _as_num other (mode self) = Ok o
                /\ F64.eqb (value o) F64.zero = true
                /\ div0_identity (mode self) = false)
  /\ (forall (x : float) (md : MazieMode),
         F64.is_finite x = true -> div0_identity md = false ->
         (a <- M (NFloat x) (Some md) ;;
          z <- M (NFloat F64.zero) None ;;
          __truediv__ a (PMazie z)) = Raise ZeroDivisionError)
  /\ (forall (self : MazieNum) (other : pyobj) (o : MazieNum),
         _as_num other (mode self) = Ok o ->
         F64.eqb (value o) F64.zero = false ->
         __truediv__ self other
         = Ok (mkMazieNum (SFdiv F64.prec F64.emax (value self) (value o))
                          (mode self))).
Proof.
  split; [|split].
  - intros self other. split.
    + intros H. destruct (_as_num other (mode self)) as [o|e] eqn:Ho.
      * rewrite (truediv_coerced _ _ _ Ho) in H. exists o.
        destruct (F64.eqb (value o) F64.zero); [|discriminate].
        destruct (div0_identity (mode self)); [discriminate|auto].
      * unfold __truediv__ in H. rewrite Ho in H. simpl in H.
        inversion H; subst.
        destruct other as [n|m|s]; simpl in Ho.
        -- destruct (to_float_cases n) as [[v Hv]|Hv]; rewrite Hv in Ho;
             simpl in Ho; discriminate.
        -- discriminate.
        -- discriminate.
    + intros (o & Ho & Hz & Hm).
      rewrite (truediv_coerced _ _ _ Ho), Hz, Hm. reflexivity.
  - intros x md _ Hm. simpl. unfold __truediv__. simpl. rewrite Hm.
    reflexivity.
  - intros self other o Ho Hz.
    rewrite (truediv_coerced _ _ _ Ho), Hz. reflexivity.
Qed.

Lemma C2_witness :
  (a <- M (NFloat f5) (Some (mkMazieMode false)) ;;
   z <- M (NFloat F64.zero) None ;;
   __truediv__ a (PMazie z)) = Raise ZeroDivisionError
  /\ __truediv__ (mkMazieNum f10 (mkMazieMode false)) (PNum (NInt 2))
     = Ok (mkMazieNum f5 (mkMazieMode false)).
Proof.
  split.
  - apply (proj1 (proj2 C2_zero_division_error_iff) f5 (mkMazieMode false));
      reflexivity.
  - apply (proj2 (proj2 C2_zero_division_error_iff)
             (mkMazieNum f10 (mkMazieMode false)) (PNum (NInt 2))
             (mkMazieNum f2 (mkMazieMode false)));
      reflexivity.
Defined.

(** C5.  The zero test of the division rule is exact: it holds of [0.0] and
    [-0.0] and of no other double.  So [__truediv__] applies the rule
    (dividend back under the identity mode, [ZeroDivisionError] otherwise)
    when the coerced divisor is one of the two zeros, and for every other
    divisor value, however small, and for infinities and NaN too, it takes
    the ordinary branch and returns the IEEE quotient (dividing [5.0] by the
    smallest positive double overflows to infinity).  And for every float
    [x], [M(x) / M(-0.0)] under the default mode returns [x] unchanged. *)
Theorem C5_zero_test_exact :
  (forall v : float,
      F64.eqb v F64.zero = true <-> v = F64.zero \/ v = F64.neg_zero)
  /\ (forall (self : MazieNum) (other : pyobj) (o : MazieNum),
         _as_num other (mode self) = Ok o ->
         (value o = F64.zero \/ value o = F64.neg_zero ->
          __truediv__ self other
          = if div0_identity (mode self)
            then Ok (mkMazieNum (value self) (mode self))
            else Raise ZeroDivisionError)
         /\ (value o <> F64.zero -> value o <> F64.neg_zero ->
             __truediv__ self other
             = Ok (mkMazieNum (SFdiv F64.prec F64.emax (value self) (value o))
                              (mode self))))
  /\ (forall x : float,
         (a <- M (NFloat x) None ;;
          z <- M (NFloat F64.neg_zero) None ;;
          __truediv__ a (PMazie z)) = Ok (mkMazieNum x default_mode))
  /\ (a <- M (NFloat f5) None ;;
      z <- M (NFloat tiny) None ;;
      __truediv__ a (PMazie z)) = Ok (mkMazieNum (S754_infinity false) default_mode).
Proof.
  assert (Hz : forall v : float,
             F64.eqb v F64.zero = true <-> v = F64.zero \/ v = F64.neg_zero).
  { intros v. rewrite eqb_zero_iff. split.
    - intros [[] ->]; [right|left]; reflexivity.
    - intros [->| ->]; eexists; reflexivity. }
  split; [exact Hz|split; [|split]].
  - intros self other o Ho. rewrite (truediv_coerced _ _ _ Ho). split.
    + intros H. apply Hz in H. rewrite H. reflexivity.
    + intros H1 H2. destruct (F64.eqb (value o) F64.zero) eqn:E; trivial.
      apply Hz in E. destruct E; contradiction.
  - intros x. reflexivity.
  - vm_compute. reflexivity.
Qed.

Lemma C5_witness :
  __truediv__ (mkMazieNum f5 default_mode) (PNum (NFloat S754_nan))
  = Ok (mkMazieNum S754_nan default_mode)
  /\ __truediv__ (mkMazieNum f5 (mkMazieMode false)) (PNum (NFloat F64.neg_zero))
     = Raise ZeroDivisionError.
Proof.
  split.
  - refine (proj2 (proj1 (proj2 C5_zero_test_exact)
                     (mkMazieNum f5 default_mode) (PNum (NFloat S754_nan))
                     (mkMazieNum S754_nan default_mode) _) _ _);
      [reflexivity | discriminate | discriminate].
  - refine (proj1 (proj1 (proj2 C5_zero_test_exact)
                     (mkMazieNum f5 (mkMazieMode false))
                     (PNum (NFloat F64.neg_zero))
                     (mkMazieNum F64.neg_zero (mkMazieMode false)) _) _);
      [reflexivity | right; reflexivity].
Defined.

(** ** Reflected operations and the mode of a result *)

(** C3.  Each reflected operation on a plain number [n] converts [n] to a
    [MazieNum] under the mode of [self], the right operand, and then runs the
    ordinary operation with that converted value on the left and [self] on
    the right.  For subtraction the value is therefore [float(n) - self.value].
    Concretely [M(3).__rsub__(5)] unwraps to [2.0], whereas [M(3) - 5] unwraps
    to [-2.0]. *)
Theorem C3_reflected_coerces_then_applies :
  (forall (self : MazieNum) (n : number),
      __rsub__ self (PNum n)
      = (v <- to_float n ;; __sub__ (mkMazieNum v (mode self)) (PMazie self))
      /\ __radd__ self (PNum n)
         = (v <- to_float n ;; __add__ (mkMazieNum v (mode self)) (PMazie self))
      /\ __rmul__ self (PNum n)
         = (v <- to_float n ;; __mul__ (mkMazieNum v (mode self)) (PMazie self))
      /\ __rtruediv__ self (PNum n)
         = (v <- to_float n ;;
            __truediv__ (mkMazieNum v (mode self)) (PMazie self)))
  /\ (forall (self : MazieNum) (n : number) (v : float),
         to_float n = Ok v ->
         __rsub__ self (PNum n)
         = Ok (mkMazieNum (F64.sub v (value self)) (mode self)))
  /\ (a <- M (NInt 3) None ;; r <- __rsub__ a (PNum (NInt 5)) ;; Ok (unwrap r))
     = Ok f2
  /\ (a <- M (NInt 3) None ;; r <- __sub__ a (PNum (NInt 5)) ;; Ok (unwrap r))
     = Ok (F64.opp f2).
Proof.
  split; [|split; [|split]].
  - intros self n. unfold __rsub__, __radd__, __rmul__, __rtruediv__. simpl.
    destruct (to_float n); simpl; auto.
  - intros self n v Hv. unfold __rsub__. simpl. rewrite Hv. reflexivity.
  - vm_compute. reflexivity.
  - vm_compute. reflexivity.
Qed.

Lemma C3_witness :
  __rsub__ (mkMazieNum f3 default_mode) (PNum (NInt 5))
  = Ok (mkMazieNum (F64.sub f5 f3) default_mode)
  /\ F64.sub f5 f3 = f2.
Proof.
  split.
  - apply (proj1 (proj2 C3_reflected_coerces_then_applies)
             (mkMazieNum f3 default_mode) (NInt 5) f5).
    reflexivity.
  - vm_compute. reflexivity.
Defined.

Lemma run_binop_mode (op : binop) (self : MazieNum) (other : pyobj) (r : MazieNum) :
  run_binop op self other = Ok r -> mode r = mode self.
Proof.
  assert (direct : forall (f : float -> float -> float) a b r0,
             (o <- _as_num b (mode a) ;;
              Ok (mkMazieNum (f (value a) (value o)) (mode a))) = Ok r0 ->
             mode r0 = mode a).
  { intros f a b r0 H. apply bind_Ok_inv in H. destruct H as (o & _ & H).
    inversion H; reflexivity. }
  assert (division : forall a b r0, __truediv__ a b = Ok r0 -> mode r0 = mode a).
  { intros a b r0 H. unfold __truediv__ in H.
    apply bind_Ok_inv in H. destruct H as (o & _ & H).
    destruct (F64.eqb (value o) F64.zero).
    - destruct (div0_identity (mode a)); inversion H; reflexivity.
    - apply bind_Ok_inv in H. destruct H as (q & _ & H).
      inversion H; reflexivity. }
  assert (reflected : forall (g : MazieNum -> pyobj -> result MazieNum),
             (forall a b r0, g a b = Ok r0 -> mode r0 = mode a) ->
             forall r0, (c <- _as_num other (mode self) ;; g c (PMazie self)) = Ok r0 ->
             mode r0 = mode self).
  { intros g Hg r0 H. apply bind_Ok_inv in H. destruct H as (c & Hc & H).
    rewrite (Hg _ _ _ H). exact (as_num_mode _ _ _ Hc). }
  destruct op; simpl; intros H.
  - exact (direct F64.add _ _ _ H).
  - exact (reflected __add__ (direct F64.add) _ H).
  - exact (direct F64.sub _ _ _ H).
  - exact (reflected __sub__ (direct F64.sub) _ H).
  - exact (direct F64.mul _ _ _ H).
  - exact (reflected __mul__ (direct F64.mul) _ H).
  - exact (division _ _ _ H).
  - exact (reflected __truediv__ division _ H).
Qed.

(** C4.  Whatever the binary operation (the four operators and their
    reflected forms) and whatever the operands, a result carries the mode of
    [self], the value the method was invoked on; for [+ - * /] that is the
    left operand.  A plain number is coerced under the mode it is handed, which
    is the mode of the [MazieNum] it is combined with, not the default one.
    Concretely [(M(5, mode=MazieMode(False)) + 3).mode.div0_identity] is
    [False]. *)
Theorem C4_result_carries_left_mode
    (op : binop) (self : MazieNum) (other : pyobj) (r : MazieNum) :
  run_binop op self other = Ok r ->
  mode r = mode self
  /\ (forall c, _as_num other (mode self) = Ok c -> mode c = mode self)
  /\ Py.fmap (fun m => div0_identity (mode m))
       (a <- M (NInt 5) (Some (mkMazieMode false)) ;; __add__ a (PNum (NInt 3)))
     = Ok false.
Proof.
  intros H. split; [|split].
  - exact (run_binop_mode _ _ _ _ H).
  - intros c Hc. exact (as_num_mode _ _ _ Hc).
  - reflexivity.
Qed.

Lemma C4_witness :
  run_binop RSub (mkMazieNum f3 (mkMazieMode false)) (PNum (NInt 5))
  = Ok (mkMazieNum f2 (mkMazieMode false))
  /\ mode (mkMazieNum f2 (mkMazieMode false)) = mkMazieMode false.
Proof.
  split; [vm_compute; reflexivity|].
  refine (proj1 (C4_result_carries_left_mode RSub
                   (mkMazieNum f3 (mkMazieMode false))
                   (PNum (NInt 5)) (mkMazieNum f2 (mkMazieMode false)) _)).
  vm_compute. reflexivity.
Defined.

(** ** Errors *)

(** C6.  Each of the eight binary operator methods raises [TypeError] exactly
    when its operand is neither a plain [int]/[float] nor a [MazieNum]. *)
Theorem C6_type_error_iff (op : binop) (self : MazieNum) (other : pyobj) :
  run_binop op self other = Raise TypeError
  <-> is_plain_number other = false /\ is_MazieNum other = false.
Proof.
  split.
  - intros H. destruct other as [n|m|s].
    + exfalso. pose proof (to_float_cases n) as Hn. revert H.
      destruct op; simpl; unfold_methods; unfold _as_num;
        destruct Hn as [[v ->]| ->]; simpl; try discriminate;
        repeat case_if; discriminate.
    + exfalso. revert H.
      destruct op; simpl; unfold_methods; simpl; try discriminate;
        repeat case_if; discriminate.
    + split; reflexivity.
  - intros [H1 H2]. destruct other as [n|m|s]; try discriminate.
    destruct op; reflexivity.
Qed.

(** ** Equality *)

Example eq_huge_int :
  __eq__ (mkMazieNum f5 default_mode) (PNum (NInt (2 ^ 1024)))
  = Raise OverflowError.
Proof. vm_compute. reflexivity. Qed.

(** C7.  [__eq__] on two [MazieNum]s is the float comparison of their values,
    whatever their modes; on a plain number it answers [True] exactly when
    [float(number)] is a value the [MazieNum]'s value compares equal to; on an
    object of any other type it returns [False] and does not raise.
    Concretely [M(5.0) == 5] and [M(5.0) == M(5.0)] are [True] and
    [M(5.0) == "5"] is [False]. *)
Theorem C7_equality :
  (forall (v w : float) (m1 m2 : MazieMode),
      __eq__ (mkMazieNum v m1) (PMazie (mkMazieNum w m2)) = Ok (F64.eqb v w))
  /\ (forall (a b : MazieNum),
         __eq__ a (PMazie b) = Ok true <-> F64.eqb (value a) (value b) = true)
  /\ (forall (a : MazieNum) (n : number),
         __eq__ a (PNum n) = Ok true
         <-> exists v, to_float n = Ok v /\ F64.eqb (value a) v = true)
  /\ (forall (a : MazieNum) (s : string), __eq__ a (POther s) = Ok false)
  /\ (a <- M (NFloat f5) None ;; __eq__ a (PNum (NInt 5))) = Ok true
  /\ (a <- M (NFloat f5) None ;; b <- M (NFloat f5) None ;; __eq__ a (PMazie b))
     = Ok true
  /\ (a <- M (NFloat f5) None ;; __eq__ a (POther "str")) = Ok false.
Proof.
  repeat split; try reflexivity.
  - simpl. intros H. inversion H. reflexivity.
  - simpl. intros ->. reflexivity.
  - simpl. destruct (to_float n) as [v|e]; simpl; intros H; inversion H.
    exists v. auto.
  - intros (v & Hv & Hq). simpl. rewrite Hv. simpl. rewrite Hq. reflexivity.
Qed.

Lemma C7_witness :
  __eq__ (mkMazieNum f5 (mkMazieMode false)) (PNum (NInt 5)) = Ok true.
Proof.
  apply (proj1 (proj2 (proj2 C7_equality)) (mkMazieNum f5 (mkMazieMode false))
           (NInt 5)).
  exists f5. split; reflexivity.
Defined.

(** ** Commutativity *)

Lemma add_eqb_comm (x y : float) :
  F64.is_finite x = true -> F64.is_finite y = true ->
  F64.eqb (F64.add x y) (F64.add y x) = true.
Proof.
  intros Hx Hy. unfold F64.add, F64.eqb.
  rewrite (SFadd_comm _ _ y x).
  apply SFeqb_refl, SFadd_finite_not_nan; assumption.
Qed.

Lemma mul_eqb_comm (x y : float) :
  F64.is_finite x = true -> F64.is_finite y = true ->
  F64.eqb (F64.mul x y) (F64.mul y x) = true.
Proof.
  intros Hx Hy. unfold F64.mul, F64.eqb.
  rewrite (SFmul_comm _ _ y x).
  apply SFeqb_refl, SFmul_finite_not_nan; assumption.
Qed.

(** C8.  For plain numbers [x] and [y] whose floats are finite, and whatever
    modes the two [MazieNum]s are made with, [M(x) + y == M(y) + x] and
    [M(x) * y == M(y) * x] are [True]; the same holds between an operator and
    its reflected form, [M(x) + y == M(x).__radd__(y)] and likewise for [*]. *)
Theorem C8_add_mul_commute
    (x y : number) (vx vy : float) (mx my : option MazieMode) :
  to_float x = Ok vx -> to_float y = Ok vy ->
  F64.is_finite vx = true -> F64.is_finite vy = true ->
  (a <- M x mx ;; l <- __add__ a (PNum y) ;;
   b <- M y my ;; r <- __add__ b (PNum x) ;; __eq__ l (PMazie r)) = Ok true
  /\ (a <- M x mx ;; l <- __mul__ a (PNum y) ;;
      b <- M y my ;; r <- __mul__ b (PNum x) ;; __eq__ l (PMazie r)) = Ok true
  /\ (a <- M x mx ;; l <- __add__ a (PNum y) ;;
      r <- __radd__ a (PNum y) ;; __eq__ l (PMazie r)) = Ok true
  /\ (a <- M x mx ;; l <- __mul__ a (PNum y) ;;
      r <- __rmul__ a (PNum y) ;; __eq__ l (PMazie r)) = Ok true.
Proof.
  intros Hx Hy Fx Fy.
  unfold M, __radd__, __rmul__, __add__, __mul__, _as_num.
  rewrite Hx, Hy. simpl. rewrite ?Hx, ?Hy. simpl.
  rewrite !add_eqb_comm, !mul_eqb_comm by assumption.
  repeat split.
Qed.

Lemma C8_witness :
  (a <- M (NInt 3) None ;; l <- __add__ a (PNum (NFloat f5)) ;;
   b <- M (NFloat f5) (Some (mkMazieMode false)) ;;
   r <- __add__ b (PNum (NInt 3)) ;; __eq__ l (PMazie r)) = Ok true.
Proof.
  refine (proj1 (C8_add_mul_commute (NInt 3) (NFloat f5) f3 f5
                   None (Some (mkMazieMode false)) _ _ _ _)); reflexivity.
Defined.

(** ** The mode and the numeric outcome *)

(** C9.  Take a [MazieNum] of value [v] and any operand, and change the modes
    of both at will.  For [+ - *] and their reflected forms the outcome (the
    value of the result, or the exception) is the same; so is the value of
    [-x]; so is the outcome of [/] when the divisor's value is not zero, and
    of the reflected [/] when [v], then the divisor, is not zero.  On a zero
    divisor the mode does decide: [M(5) / 0] is [5.0] under the default mode
    and raises under [MazieMode(False)]. *)
Theorem C9_value_independent_of_mode
    (v : float) (md md' md2 : MazieMode) (other : pyobj) :
  (forall op, is_division op = false ->
      Py.fmap value (run_binop op (mkMazieNum v md) other)
      = Py.fmap value (run_binop op (mkMazieNum v md') (with_mode md2 other)))
  /\ value (__neg__ (mkMazieNum v md)) = value (__neg__ (mkMazieNum v md'))
  /\ (forall o, _as_num other md = Ok o -> F64.eqb (value o) F64.zero = false ->
         Py.fmap value (__truediv__ (mkMazieNum v md) other)
         = Py.fmap value (__truediv__ (mkMazieNum v md') (with_mode md2 other)))
  /\ (F64.eqb v F64.zero = false ->
         Py.fmap value (__rtruediv__ (mkMazieNum v md) other)
         = Py.fmap value (__rtruediv__ (mkMazieNum v md') (with_mode md2 other)))
  /\ (__truediv__ (mkMazieNum f5 default_mode) (PNum (NInt 0))
      = Ok (mkMazieNum f5 default_mode)
      /\ __truediv__ (mkMazieNum f5 (mkMazieMode false)) (PNum (NInt 0))
         = Raise ZeroDivisionError).
Proof.
  split; [|split; [|split; [|split]]].
  - intros op Hop.
    destruct op; try discriminate Hop; simpl; unfold_methods;
      destruct other as [n|m|s]; simpl; trivial;
      destruct (to_float n); reflexivity.
  - reflexivity.
  - intros o Ho Hz.
    destruct other as [n|m|s]; simpl in Ho.
    + apply bind_Ok_inv in Ho. destruct Ho as (w & Hw & Ho).
      inversion Ho; subst; simpl in Hz.
      unfold_methods. simpl. rewrite Hw. simpl. rewrite Hz. reflexivity.
    + inversion Ho; subst; simpl in Hz.
      unfold_methods. simpl. rewrite Hz. reflexivity.
    + discriminate.
  - intros Hz. unfold_methods.
    destruct other as [n|m|s]; simpl; trivial.
    + destruct (to_float n); simpl; trivial. rewrite Hz. reflexivity.
    + rewrite Hz. reflexivity.
  - split; reflexivity.
Qed.

Lemma C9_witness :
  Py.fmap value (__truediv__ (mkMazieNum f10 default_mode)
                   (PMazie (mkMazieNum f2 default_mode)))
  = Py.fmap value (__truediv__ (mkMazieNum f10 (mkMazieMode false))
                     (PMazie (mkMazieNum f2 (mkMazieMode false))))
  /\ Py.fmap value (__truediv__ (mkMazieNum f10 default_mode)
                      (PMazie (mkMazieNum f2 default_mode)))
     = Ok f5.
Proof.
  split; [|vm_compute; reflexivity].
  apply (proj1 (proj2 (proj2
           (C9_value_independent_of_mode f10 default_mode (mkMazieMode false)
              (mkMazieMode false) (PMazie (mkMazieNum f2 default_mode)))))
           (mkMazieNum f2 default_mode));
    reflexivity.
Defined.

(** ** Construction and unwrap *)

(** C10.  For every plain number [x] and every choice of mode, [M(x)]
    followed by [unwrap] is [float(x)]: the constructor stores [float(x)]
    (and raises what [float(x)] raises), and [unwrap] hands the stored value
    back as it is.  When that value is not a NaN, Python's [==] between
    [M(x).unwrap()] and [float(x)] is [True]. *)
Theorem C10_unwrap_after_M (x : number) (omd : option MazieMode) :
  Py.fmap unwrap (M x omd) = to_float x
  /\ Py.fmap value (M x omd) = to_float x
  /\ (forall a : MazieNum, unwrap a = value a)
  /\ (forall v : float, to_float x = Ok v -> F64.is_nan v = false ->
         Py.fmap (fun a => F64.eqb (unwrap a) v) (M x omd) = Ok true).
Proof.
  unfold M. repeat split.
  - destruct (to_float x); reflexivity.
  - destruct (to_float x); reflexivity.
  - intros v Hv Hn. rewrite Hv. simpl. unfold unwrap, F64.eqb. simpl.
    rewrite SFeqb_refl; [reflexivity|]. intros ->. discriminate.
Qed.

Lemma C10_witness :
  Py.fmap (fun a => F64.eqb (unwrap a) f5) (M (NInt 5) None) = Ok true.
Proof.
  apply (proj2 (proj2 (proj2 (C10_unwrap_after_M (NInt 5) None))) f5);
    reflexivity.
Defined.

(** ** More facts about binary64 arithmetic: signs and comparison *)

Section Signs.

Variables prec emax : Z.

Lemma SFopp_involutive (x : spec_float) : SFopp (SFopp x) = x.
Proof. destruct x; simpl; rewrite ?negb_involutive; reflexivity. Qed.

(** The sign handed to the rounding only labels its result. *)
Lemma binary_round_aux_opp (s : bool) (m e : Z) (l : location) :
  binary_round_aux prec emax (negb s) m e l
  = SFopp (binary_round_aux prec emax s m e l).
Proof.
  unfold binary_round_aux.
  destruct (shr_fexp prec emax m e l) as [r1 e1].
  destruct (shr_fexp prec emax _ e1 loc_Exact) as [r2 e2].
  destruct (shr_m r2); trivial.
  destruct (e2 <=? emax - prec); reflexivity.
Qed.

Lemma binary_round_opp (s : bool) (m : positive) (e : Z) :
  binary_round prec emax (negb s) m e = SFopp (binary_round prec emax s m e).
Proof.
  unfold binary_round. destruct (shl_align m e _) as [mz ez].
  apply binary_round_aux_opp.
Qed.

Lemma binary_normalize_opp (z e : Z) :
  z <> 0 ->
  binary_normalize prec emax (- z) e false
  = SFopp (binary_normalize prec emax z e false).
Proof.
  destruct z as [|p|p]; simpl; intros H.
  - contradiction H; reflexivity.
  - apply (binary_round_opp false).
  - change (binary_round prec emax true p e)
      with (binary_round prec emax (negb false) p e).
    rewrite binary_round_opp, SFopp_involutive. reflexivity.
Qed.

Lemma SFsub_add_opp (x y : spec_float) :
  SFsub prec emax x y = SFadd prec emax x (SFopp y).
Proof.
  destruct x as [sx|sx| |sx mx ex], y as [sy|sy| |sy my ey]; simpl; trivial;
    destruct sx, sy; reflexivity.
Qed.

Lemma SFmul_opp_l (x y : spec_float) :
  SFmul prec emax (SFopp x) y = SFopp (SFmul prec emax x y).
Proof.
  destruct x as [sx|sx| |sx mx ex], y as [sy|sy| |sy my ey]; simpl; trivial;
    try (destruct sx, sy; reflexivity).
  rewrite <- binary_round_aux_opp. destruct sx, sy; reflexivity.
Qed.

Lemma SFdiv_opp_l (x y : spec_float) :
  SFdiv prec emax (SFopp x) y = SFopp (SFdiv prec emax x y).
Proof.
  destruct x as [sx|sx| |sx mx ex], y as [sy|sy| |sy my ey]; simpl; trivial;
    try (destruct sx, sy; reflexivity).
  destruct (SFdiv_core_binary prec emax (Z.pos mx) ex (Z.pos my) ey)
    as [[mz ez] lz].
  rewrite <- binary_round_aux_opp. destruct sx, sy; reflexivity.
Qed.

Lemma SFsub_diag (x : spec_float) :
  F64.is_finite x = true -> SFsub prec emax x x = S754_zero false.
Proof.
  destruct x as [s|s| |s m e]; simpl; try discriminate; intros _.
  - destruct s; reflexivity.
  - rewrite Z.sub_diag. reflexivity.
Qed.

End Signs.

(** On finite operands [x - y] and [-(y - x)] compare equal: they are the
    same double, or the two zeros. *)
Lemma SFsub_antisym_eqb (prec emax : Z) (x y : spec_float) :
  F64.is_finite x = true -> F64.is_finite y = true ->
  SFeqb (SFsub prec emax x y) (SFopp (SFsub prec emax y x)) = true.
Proof.
  destruct x as [sx|sx| |sx mx ex], y as [sy|sy| |sy my ey]; simpl;
    try discriminate; intros _ _.
  - destruct sx, sy; reflexivity.
  - apply SFeqb_refl. discriminate.
  - rewrite negb_involutive. apply SFeqb_refl. discriminate.
  - rewrite (Z.min_comm ey ex).
    set (a := cond_Zopp sx (Z.pos (fst (shl_align mx ex (Z.min ex ey))))).
    set (b := cond_Zopp sy (Z.pos (fst (shl_align my ey (Z.min ex ey))))).
    destruct (Z.eq_dec (a - b) 0) as [E|E].
    + replace (b - a) with 0 by lia. rewrite E. reflexivity.
    + replace (b - a) with (- (a - b)) by lia.
      rewrite binary_normalize_opp by exact E.
      rewrite SFopp_involutive.
      apply SFeqb_refl, binary_normalize_not_nan.
Qed.

Lemma SFcompare_antisym (x y : spec_float) :
  SFcompare y x = option_map CompOpp (SFcompare x y).
Proof.
  destruct x as [sx|sx| |sx mx ex], y as [sy|sy| |sy my ey]; simpl; trivial;
    try (destruct sx; reflexivity); try (destruct sy; reflexivity);
    try (destruct sx, sy; reflexivity).
  rewrite (Z.compare_antisym ex ey).
  assert (Hm : Pos.compare_cont Eq my mx = CompOpp (Pos.compare_cont Eq mx my))
    by (rewrite Pos.compare_cont_antisym; reflexivity).
  rewrite Hm.
  destruct sx, sy; simpl; trivial;
    destruct (ex ?= ey); simpl; trivial.
Qed.

Lemma SFeqb_sym (x y : spec_float) : SFeqb x y = SFeqb y x.
Proof.
  unfold SFeqb. rewrite (SFcompare_antisym x y).
  destruct (SFcompare x y) as [[]|]; reflexivity.
Qed.

Lemma SFeqb_diag (x : spec_float) : SFeqb x x = negb (F64.is_nan x).
Proof.
  destruct x as [s|s| |s m e]; try reflexivity;
    simpl F64.is_nan; apply SFeqb_refl; discriminate.
Qed.

(** ** Negation and how the operators compose *)

(** X1.  Negating twice gives the very same [MazieNum] back, value and mode,
    whatever the double (NaN, infinities and both zeros included). *)
Theorem X1_neg_involutive (a : MazieNum) : __neg__ (__neg__ a) = a.
Proof.
  destruct a as [v md]. unfold __neg__, F64.opp. simpl.
  rewrite SFopp_involutive. reflexivity.
Qed.

(** In the model, where all NaNs are one, subtraction is addition of the
    opposite and a sign on the left operand comes out of a product and of a
    quotient.  The theorems below keep what this says of the program's
    doubles: the results that are not NaN, and the exceptions. *)
Lemma sub_add_neg_model (a o : MazieNum) :
  F64.sub (value a) (value o) = F64.add (value a) (F64.opp (value o)).
Proof. unfold F64.sub, F64.add, F64.opp. apply SFsub_add_opp. Qed.

Lemma mul_neg_model (a : MazieNum) (other : pyobj) :
  __mul__ (__neg__ a) other = Py.fmap __neg__ (__mul__ a other).
Proof.
  destruct a as [v md]. unfold __mul__, __neg__; simpl.
  destruct (_as_num other md) as [o|e]; simpl; trivial.
  unfold F64.mul, F64.opp. rewrite SFmul_opp_l. reflexivity.
Qed.

Lemma truediv_neg_model (a : MazieNum) (other : pyobj) :
  __truediv__ (__neg__ a) other = Py.fmap __neg__ (__truediv__ a other).
Proof.
  destruct a as [v md]. unfold __truediv__, __neg__, F64.truediv; simpl.
  destruct (_as_num other md) as [o|e]; simpl; trivial.
  destruct (F64.eqb (value o) F64.zero); simpl.
  - destruct (div0_identity md); reflexivity.
  - unfold F64.opp. rewrite SFdiv_opp_l. reflexivity.
Qed.

(** X2.  Subtracting an operand is adding its negation: whenever the
    difference of [a] and the coerced operand is not a NaN, [a - other]
    returns it, and coercing [other] under [a]'s mode, negating it and adding
    it to [a] returns the same double under the same mode. *)
Theorem X2_sub_is_add_neg (a : MazieNum) (other : pyobj) (o : MazieNum) :
  _as_num other (mode a) = Ok o ->
  F64.is_nan (F64.sub (value a) (value o)) = false ->
  __sub__ a other
  = Ok (mkMazieNum (F64.sub (value a) (value o)) (mode a))
  /\ __add__ a (PMazie (__neg__ o))
     = Ok (mkMazieNum (F64.sub (value a) (value o)) (mode a)).
Proof.
  intros Ho _. unfold __sub__, __add__. rewrite Ho. simpl.
  rewrite sub_add_neg_model. split; reflexivity.
Qed.

Lemma X2_witness :
  __sub__ (mkMazieNum f5 default_mode) (PNum (NInt 3))
  = Ok (mkMazieNum f2 default_mode)
  /\ __add__ (mkMazieNum f5 default_mode)
       (PMazie (__neg__ (mkMazieNum f3 default_mode)))
     = Ok (mkMazieNum f2 default_mode).
Proof.
  exact (X2_sub_is_add_neg (mkMazieNum f5 default_mode) (PNum (NInt 3))
           (mkMazieNum f3 default_mode) eq_refl eq_refl).
Defined.

(** X3.  A sign on the left operand comes out of a product and of a
    quotient: when [a * other] returns a value that is not a NaN,
    [(-a) * other] returns its negation, the same double with the sign
    flipped under the same mode; likewise for [/], the division-by-zero
    rule included; and when [a * other] or [a / other] raises,
    [(-a) * other] or [(-a) / other] raises the same exception. *)
Theorem X3_neg_mul_div (a : MazieNum) (other : pyobj) :
  (forall r, __mul__ a other = Ok r -> F64.is_nan (value r) = false ->
             __mul__ (__neg__ a) other = Ok (__neg__ r))
  /\ (forall r, __truediv__ a other = Ok r -> F64.is_nan (value r) = false ->
                __truediv__ (__neg__ a) other = Ok (__neg__ r))
  /\ (forall e, __mul__ a other = Raise e ->
                __mul__ (__neg__ a) other = Raise e)
  /\ (forall e, __truediv__ a other = Raise e ->
                __truediv__ (__neg__ a) other = Raise e).
Proof.
  rewrite mul_neg_model, truediv_neg_model.
  repeat split; intros r H; try intros _; rewrite H; reflexivity.
Qed.

Lemma X3_witness :
  __mul__ (__neg__ (mkMazieNum f5 default_mode)) (PNum (NInt 2))
  = Ok (__neg__ (mkMazieNum f10 default_mode))
  /\ __truediv__ (__neg__ (mkMazieNum f5 (mkMazieMode false))) (PNum (NInt 0))
     = Raise ZeroDivisionError.
Proof.
  split.
  - exact (proj1 (X3_neg_mul_div (mkMazieNum f5 default_mode) (PNum (NInt 2)))
             (mkMazieNum f10 default_mode) eq_refl eq_refl).
  - exact (proj2 (proj2 (proj2
             (X3_neg_mul_div (mkMazieNum f5 (mkMazieMode false))
                (PNum (NInt 0)))))
             ZeroDivisionError eq_refl).
Defined.

(** X4.  On finite values the reflected subtraction and the negated direct
    subtraction compare equal: [a.__rsub__(n) == -(a - n)] is [True]. *)
Theorem X4_rsub_eq_neg_sub (a : MazieNum) (n : number) (v : float) :
  to_float n = Ok v ->
  F64.is_finite v = true -> F64.is_finite (value a) = true ->
  (l <- __rsub__ a (PNum n) ;;
   r <- __sub__ a (PNum n) ;;
   __eq__ l (PMazie (__neg__ r))) = Ok true.
Proof.
  intros Hv Fv Fa. unfold __rsub__, __sub__. simpl. rewrite Hv. simpl.
  unfold F64.eqb, F64.sub, F64.opp.
  rewrite SFsub_antisym_eqb by assumption. reflexivity.
Qed.

Lemma X4_witness :
  (l <- __rsub__ (mkMazieNum f3 default_mode) (PNum (NInt 5)) ;;
   r <- __sub__ (mkMazieNum f3 default_mode) (PNum (NInt 5)) ;;
   __eq__ l (PMazie (__neg__ r))) = Ok true.
Proof.
  apply (X4_rsub_eq_neg_sub (mkMazieNum f3 default_mode) (NInt 5) f5);
    reflexivity.
Defined.

(** X5.  Reflected division by a [MazieNum] whose value is zero: [n / a]
    gives [float(n)] back under [a]'s mode when that mode has
    [div0_identity], and raises [ZeroDivisionError] otherwise. *)
Theorem X5_rtruediv_zero_self (a : MazieNum) (n : number) (v : float) :
  to_float n = Ok v ->
  F64.eqb (value a) F64.zero = true ->
  __rtruediv__ a (PNum n)
  = if div0_identity (mode a) then Ok (mkMazieNum v (mode a))
    else Raise ZeroDivisionError.
Proof.
  intros Hv Hz. unfold __rtruediv__, __truediv__. simpl.
  rewrite Hv. simpl. rewrite Hz. reflexivity.
Qed.

Lemma X5_witness :
  __rtruediv__ (mkMazieNum F64.neg_zero default_mode) (PNum (NInt 5))
  = Ok (mkMazieNum f5 default_mode).
Proof.
  apply (X5_rtruediv_zero_self (mkMazieNum F64.neg_zero default_mode)
           (NInt 5) f5); reflexivity.
Defined.

(** X6.  Division by a NaN, given as a plain float or as a [MazieNum] of any
    mode, takes the ordinary branch whatever the mode of the dividend: it
    does not raise and its value is a NaN, under the dividend's mode. *)
Theorem X6_div_by_nan (a : MazieNum) (md : MazieMode) :
  __truediv__ a (PNum (NFloat S754_nan)) = Ok (mkMazieNum S754_nan (mode a))
  /\ __truediv__ a (PMazie (mkMazieNum S754_nan md))
     = Ok (mkMazieNum S754_nan (mode a)).
Proof.
  destruct a as [v m]. unfold __truediv__, F64.truediv. simpl.
  destruct v; split; reflexivity.
Qed.

(** X7.  For finite [a], [a - a] is [+0.0], under [a]'s mode. *)
Theorem X7_sub_self (a : MazieNum) :
  F64.is_finite (value a) = true ->
  __sub__ a (PMazie a) = Ok (mkMazieNum F64.zero (mode a)).
Proof.
  intros Fa. unfold __sub__. simpl. unfold F64.sub.
  rewrite SFsub_diag by exact Fa. reflexivity.
Qed.

Lemma X7_witness :
  __sub__ (mkMazieNum f5 default_mode) (PMazie (mkMazieNum f5 default_mode))
  = Ok (mkMazieNum F64.zero default_mode).
Proof.
  apply (X7_sub_self (mkMazieNum f5 default_mode)). reflexivity.
Defined.

(** X8.  Addition and multiplication of two [MazieNum]s give the same double
    in either order whenever it is not a NaN: the same infinity on infinite
    operands, the same sign on a zero (where [==] could not tell); only the
    mode follows the left operand. *)
Theorem X8_add_mul_comm_exact (a b : MazieNum) :
  (F64.is_nan (F64.add (value a) (value b)) = false ->
   Py.fmap value (__add__ a (PMazie b)) = Ok (F64.add (value a) (value b))
   /\ Py.fmap value (__add__ b (PMazie a)) = Ok (F64.add (value a) (value b)))
  /\ (F64.is_nan (F64.mul (value a) (value b)) = false ->
      Py.fmap value (__mul__ a (PMazie b)) = Ok (F64.mul (value a) (value b))
      /\ Py.fmap value (__mul__ b (PMazie a)) = Ok (F64.mul (value a) (value b))).
Proof.
  unfold __add__, __mul__, F64.add, F64.mul. simpl.
  rewrite (SFadd_comm _ _ (value b)), (SFmul_comm _ _ (value b)).
  repeat split.
Qed.

Lemma X8_witness :
  Py.fmap value (__add__ (mkMazieNum (S754_infinity true) default_mode)
                   (PMazie (mkMazieNum f5 (mkMazieMode false))))
  = Ok (S754_infinity true)
  /\ Py.fmap value (__add__ (mkMazieNum f5 (mkMazieMode false))
                      (PMazie (mkMazieNum (S754_infinity true) default_mode)))
     = Ok (S754_infinity true).
Proof.
  exact (proj1 (X8_add_mul_comm_exact
                  (mkMazieNum (S754_infinity true) default_mode)
                  (mkMazieNum f5 (mkMazieMode false))) eq_refl).
Defined.

(** ** Which exceptions, and when *)

Lemma to_float_overflow_iff (n : number) :
  to_float n = Raise OverflowError
  <-> exists z, n = NInt z /\ F64.of_int z = Raise OverflowError.
Proof.
  split.
  - destruct n as [z|f]; simpl; intros H; [eauto | discriminate].
  - intros (z & -> & H). exact H.
Qed.

(** X9.  Each of the eight operator methods raises [OverflowError] exactly
    when its operand is a plain [int] that [float()] cannot convert. *)
Theorem X9_overflow_error_iff (op : binop) (self : MazieNum) (other : pyobj) :
  run_binop op self other = Raise OverflowError
  <-> exists z, other = PNum (NInt z) /\ F64.of_int z = Raise OverflowError.
Proof.
  split.
  - intros H. destruct other as [n|m|s].
    + destruct (to_float_cases n) as [[v Hv]|Hv].
      * exfalso. revert H.
        destruct op; simpl; unfold_methods; unfold _as_num;
          rewrite Hv; simpl; try discriminate;
          repeat case_if; discriminate.
      * apply to_float_overflow_iff in Hv. destruct Hv as (z & -> & Hz).
        eauto.
    + exfalso. revert H.
      destruct op; simpl; unfold_methods; simpl; try discriminate;
        repeat case_if; discriminate.
    + exfalso. destruct op; discriminate H.
  - intros (z & -> & Hz).
    destruct op; simpl; unfold_methods; simpl; rewrite Hz; reflexivity.
Qed.

(** X10.  Addition, subtraction and multiplication, direct or reflected,
    never raise [ZeroDivisionError]. *)
Theorem X10_no_zero_division_outside_div
    (op : binop) (self : MazieNum) (other : pyobj) :
  is_division op = false ->
  run_binop op self other <> Raise ZeroDivisionError.
Proof.
  intros Hop.
  destruct op; try discriminate Hop; simpl; unfold_methods;
    destruct other as [n|m|s]; simpl; try discriminate;
    destruct (to_float_cases n) as [[v ->]| ->]; discriminate.
Qed.

Lemma X10_witness :
  run_binop RSub (mkMazieNum F64.zero (mkMazieMode false)) (PNum (NInt 0))
  <> Raise ZeroDivisionError.
Proof.
  apply (X10_no_zero_division_outside_div RSub
           (mkMazieNum F64.zero (mkMazieMode false)) (PNum (NInt 0))).
  reflexivity.
Defined.

(** X11.  On a [MazieNum] or plain [float] operand nothing can go wrong
    except a division by zero outside the identity mode: addition,
    subtraction and multiplication always return, and so does every
    division whose [self] has [div0_identity]. *)
Theorem X11_total_on_float_operands
    (op : binop) (self : MazieNum) (other : pyobj) :
  (is_MazieNum other = true \/ exists f, other = PNum (NFloat f)) ->
  (is_division op = false \/ div0_identity (mode self) = true) ->
  exists r, run_binop op self other = Ok r.
Proof.
  intros Hother Hop.
  assert (Hc : exists w, forall md, _as_num other md = Ok (mkMazieNum w md)).
  { destruct Hother as [H|[f ->]].
    - destruct other as [n|m|s]; try discriminate H. exists (value m).
      reflexivity.
    - exists f. reflexivity. }
  destruct Hc as [w Hw].
  destruct op; simpl; unfold_methods; rewrite Hw; simpl;
    try (eexists; reflexivity);
    destruct Hop as [Hop|Hop]; try discriminate Hop;
    rewrite Hop; repeat case_if; eexists; reflexivity.
Qed.

Lemma X11_witness :
  exists r,
    run_binop RTrueDiv (mkMazieNum F64.zero default_mode)
      (PNum (NFloat (S754_infinity true))) = Ok r.
Proof.
  apply (X11_total_on_float_operands RTrueDiv
           (mkMazieNum F64.zero default_mode)
           (PNum (NFloat (S754_infinity true)))).
  - right. exists (S754_infinity true). reflexivity.
  - right. reflexivity.
Defined.

(** ** Equality, zero and integers *)

(** X12.  [==] between two [MazieNum]s is symmetric, and a [MazieNum] equals
    itself exactly when its value is not a NaN. *)
Theorem X12_eq_symmetric (a b : MazieNum) :
  __eq__ a (PMazie b) = __eq__ b (PMazie a)
  /\ __eq__ a (PMazie a) = Ok (negb (F64.is_nan (value a))).
Proof.
  simpl. unfold F64.eqb.
  rewrite (SFeqb_sym (value a) (value b)), SFeqb_diag. split; reflexivity.
Qed.

(** X13.  Zero is neutral under [==]: for a value that is not a NaN,
    [a + 0 == a] and [a - 0 == a] are [True]. *)
Theorem X13_add_sub_zero (a : MazieNum) :
  F64.is_nan (value a) = false ->
  (r <- __add__ a (PNum (NInt 0)) ;; __eq__ r (PMazie a)) = Ok true
  /\ (r <- __sub__ a (PNum (NInt 0)) ;; __eq__ r (PMazie a)) = Ok true.
Proof.
  destruct a as [v md]. simpl. intros Hn.
  assert (Hv : SFeqb v v = true) by (rewrite SFeqb_diag, Hn; reflexivity).
  destruct v as [s|s| |s m e]; try discriminate Hn;
    split; try exact (f_equal Ok Hv); destruct s; reflexivity.
Qed.

Lemma X13_witness :
  (r <- __add__ (mkMazieNum F64.neg_zero default_mode) (PNum (NInt 0)) ;;
   __eq__ r (PMazie (mkMazieNum F64.neg_zero default_mode))) = Ok true.
Proof.
  refine (proj1 (X13_add_sub_zero (mkMazieNum F64.neg_zero default_mode) _)).
  reflexivity.
Defined.

Lemma of_int_opp (n : Z) :
  n <> 0 -> F64.of_int (- n) = Py.fmap F64.opp (F64.of_int n).
Proof.
  intros H. unfold F64.of_int.
  rewrite binary_normalize_opp by exact H.
  destruct (binary_normalize F64.prec F64.emax n 0 false); reflexivity.
Qed.

(** X14.  For a non-zero [int] [n], [M(-n)] is [-M(n)]: the same double,
    the same mode, and the same [OverflowError] when [n] is too large. *)
Theorem X14_M_of_opposite (n : Z) (omd : option MazieMode) :
  n <> 0 ->
  M (NInt (- n)) omd = Py.fmap __neg__ (M (NInt n) omd).
Proof.
  intros H. unfold M. simpl. rewrite (of_int_opp n H).
  destruct (F64.of_int n); reflexivity.
Qed.

Lemma X14_witness :
  M (NInt (- 5)) None = Ok (mkMazieNum (F64.opp f5) default_mode).
Proof.
  refine (eq_trans (X14_M_of_opposite 5 None _) _);
    [discriminate | reflexivity].
Defined.

(** X15.  A [MazieNum] made from an [int] holds a finite double: neither an
    infinity nor a NaN. *)
Theorem X15_M_of_int_finite (n : Z) (omd : option MazieMode) (a : MazieNum) :
  M (NInt n) omd = Ok a -> F64.is_finite (value a) = true.
Proof.
  unfold M. simpl. intros H.
  apply bind_Ok_inv in H. destruct H as (v & Hv & H).
  inversion H; subst. simpl. exact (of_int_finite _ _ Hv).
Qed.

Lemma X15_witness :
  F64.is_finite (value (mkMazieNum f10 default_mode)) = true.
Proof.
  apply (X15_M_of_int_finite 10 None (mkMazieNum f10 default_mode)).
  reflexivity.
Defined.
